(** * Validator economics chart: the weekly projection behind the plot

    Shallow embedding of the [data] memo of
    [docs/components/ValidatorEconomics.tsx].  A JavaScript [number] is an
    IEEE 754 binary64 value, so numbers are Rocq's primitive [float]s and
    [+], [-], [*], [/] are the correctly rounded binary64 operations.
    [Math.sin] and [Math.cos] are implementation-approximated in ECMAScript;
    they are variables of the section below. *)

From Stdlib Require Import Floats ZArith List Bool Lia Sorted.
Import ListNotations.

Set Warnings "-inexact-float".
Local Open Scope float_scope.

(** ** Cost tables *)

Inductive Provider : Set := aws_ec2 | gcp_compute.
Inductive BlobProvider : Set := s3 | gcs.

Record ComputeCost : Set := { base : float }.
Record BlobCost : Set := { storage_per_gb : float; egress_per_gb : float }.

Definition COMPUTE_COSTS (p : Provider) : ComputeCost :=
  match p with
  | aws_ec2 => {| base := 80 |}
  | gcp_compute => {| base := 70 |}
  end.

Definition BLOB_COSTS (b : BlobProvider) : BlobCost :=
  match b with
  | s3 => {| storage_per_gb := 0.023; egress_per_gb := 0.09 |}
  | gcs => {| storage_per_gb := 0.020; egress_per_gb := 0.12 |}
  end.

(** ** Numbers *)

(** An array index or a length, as the JavaScript number it is. *)
Definition Num (n : nat) : float :=
  PrimFloat.of_uint63 (Uint63.of_Z (Z.of_nat n)).

(** [===] on numbers: IEEE equality ([NaN] differs from itself, [-0] equals
    [0]). *)
Definition strict_eq (x y : float) : bool := PrimFloat.eqb x y.

(** [Number.isFinite]. *)
Definition isFinite (x : float) : bool :=
  negb (is_nan x) && negb (is_infinity x).

(** ** The closure's running totals

    [cumulativeEarnings] and [cumulativeCosts] are [let] bindings of the memo
    callback, updated by the mapping function on every index.  The mapping
    function is a state transformer over them. *)

Record Totals : Set := { cumulativeEarnings : float; cumulativeCosts : float }.

Definition M (A : Type) : Type := Totals -> A * Totals.

Definition ret {A : Type} (a : A) : M A := fun t => (a, t).

Definition bind {A B : Type} (m : M A) (k : A -> M B) : M B :=
  fun t => let (a, t') := m t in k a t'.

Notation "x <- m ;; k" := (bind m (fun x => k))
  (at level 61, m at next level, right associativity).
Notation "m ;; k" := (bind m (fun _ => k))
  (at level 61, right associativity).

Definition add_earnings (x : float) : M unit :=
  fun t => (tt, {| cumulativeEarnings := cumulativeEarnings t + x;
                   cumulativeCosts := cumulativeCosts t |}).

Definition add_costs (x : float) : M unit :=
  fun t => (tt, {| cumulativeEarnings := cumulativeEarnings t;
                   cumulativeCosts := cumulativeCosts t + x |}).

Definition get_totals : M Totals := fun t => (t, t).

(** [Array.from({ length }, fn)]: [fn] is called on the indices
    [0, 1, ..., length - 1] in ascending order; [from_index i k] makes the
    [k] calls that start at index [i]. *)
Fixpoint from_index {A : Type} (fn : nat -> M A) (i k : nat) : M (list A) :=
  match k with
  | O => ret []
  | S k' => a <- fn i ;; l <- from_index fn (S i) k' ;; ret (a :: l)
  end.

Definition Array_from {A : Type} (length : nat) (fn : nat -> M A)
    : M (list A) :=
  from_index fn 0 length.

(** ** The projection *)

Record WeekProjection : Set := {
  week : float;
  weeklyEarningsUSD : float;
  weeklyInfraCostUSD : float;
  netUSD : float;
  cumulativeNetUSD : float
}.

Definition storageGB : float := 200.
Definition egressGB : float := 400.
Definition annualRewardRate : float := 0.07.
Definition weeks : nat := 12.

(** ** What the claims speak of *)

(** The sum of a sequence of numbers, accumulated from [0] left to right. *)
Definition sum (l : list float) : float := fold_left PrimFloat.add l 0.

(** Two numbers agree up to a tolerance. *)
Definition approx (tol x y : float) : bool := abs (x - y) <? tol.

(** The array element of week [w] (weeks count from one). *)
Definition at_week (l : list WeekProjection) (w : nat)
    : option WeekProjection :=
  nth_error l (w - 1).

(** A field of the element of week [w]. *)
Definition field_at (f : WeekProjection -> float) (l : list WeekProjection)
    (w : nat) : option float :=
  option_map f (at_week l w).

(** The weekly infrastructure cost as the specification words it: the monthly
    compute base divided by 4.345, 200 GB stored and 400 GB of egress, grown
    by 1.5 % per week. *)
Definition spec_weeklyInfraCostUSD (computeBaseMonthlyCost storagePerGbMonthly
    egressPerGbMonthly : float) (w : nat) : float :=
  (computeBaseMonthlyCost / 4.345 + storagePerGbMonthly * 200
   + egressPerGbMonthly * 400) * (1 + Num w * 0.015).

(** Truncated Taylor series, standing for an implementation of [Math.sin] and
    [Math.cos] where the model is run on an example. *)
Definition sin_series (x : float) : float :=
  x - x * x * x / 6 + x * x * x * x * x / 120.

Definition cos_series (x : float) : float :=
  1 - x * x / 2 + x * x * x * x / 24.

(** ** The component's memory

    The hook state the component holds, one field per [useState], and the two
    cells the memo callback declares.  The callback reads the hook state
    through its closure; the cells keep what the latest call left in them. *)

Record Hooks : Set := {
  provider : Provider;
  blob : BlobProvider;
  audioPrice : float;
  totalStake : float;
  userStake : float;
  darkMode : bool
}.

Record Store : Set := { hooks : Hooks; cells : Totals }.

(** Two memories with the same five dependency values: the default hook
    state on untouched cells, and the same state in the light theme on cells
    a previous call has used. *)
Definition default_store : Store :=
  {| hooks := {| provider := aws_ec2; blob := s3; audioPrice := 0.27;
                 totalStake := 280000000; userStake := 2000000;
                 darkMode := true |};
     cells := {| cumulativeEarnings := 0; cumulativeCosts := 0 |} |}.

Definition used_store : Store :=
  {| hooks := {| provider := aws_ec2; blob := s3; audioPrice := 0.27;
                 totalStake := 280000000; userStake := 2000000;
                 darkMode := false |};
     cells := {| cumulativeEarnings := 1234.5; cumulativeCosts := 678.9 |} |}.

Section Simulation.

Variables Math_sin Math_cos : float -> float.

(** The constants of the memo callback. *)
Definition weeklyRewardRate : float := annualRewardRate / 52.
Definition monthlyToWeekly : float := 1 / 4.345.

(** The mapping function [(_, i) => { ... }], closed over the table rows
    and the hook state it reads. *)
Definition project (computeCost : ComputeCost) (blobCost : BlobCost)
    (audioPrice userStake : float) (i : nat) : M WeekProjection :=
  let week := Num i + 1 in
  let priceDrift := audioPrice * (1 + 0.1 * Math_sin (week / 3)) in
  let rewardVariance := weeklyRewardRate * (1 + 0.05 * Math_cos (week / 2)) in
  let weeklyEarningsUSD := userStake * rewardVariance * priceDrift in
  add_earnings weeklyEarningsUSD ;;
  let costGrowth := 1 + week * 0.015 in
  let weeklyInfraCostUSD :=
    (base computeCost * monthlyToWeekly +
     storage_per_gb blobCost * storageGB +
     egress_per_gb blobCost * egressGB) * costGrowth in
  add_costs weeklyInfraCostUSD ;;
  let netUSD := weeklyEarningsUSD - weeklyInfraCostUSD in
  t <- get_totals ;;
  let cumulativeNetUSD := cumulativeEarnings t - cumulativeCosts t in
  ret {| week := week;
         weeklyEarningsUSD := weeklyEarningsUSD;
         weeklyInfraCostUSD := weeklyInfraCostUSD;
         netUSD := netUSD;
         cumulativeNetUSD := cumulativeNetUSD |}.

(** The memo callback, a function of its dependency list
    [[provider, blob, audioPrice, totalStake, userStake]]: fresh totals,
    then the array. *)
Definition data (provider : Provider) (blob : BlobProvider)
    (audioPrice totalStake userStake : float) : list WeekProjection :=
  let blobCost := BLOB_COSTS blob in
  let computeCost := COMPUTE_COSTS provider in
  fst (Array_from weeks (project computeCost blobCost audioPrice userStake)
         {| cumulativeEarnings := 0; cumulativeCosts := 0 |}).

(** The memo callback run on the component's memory: it reads [provider],
    [blob], [audioPrice] and [userStake] from the hook state, declares its
    two totals at 0 and builds the array.  It calls no setter; the cells end
    with the totals of the last week. *)
Definition callback (s : Store) : list WeekProjection * Store :=
  let blobCost := BLOB_COSTS (blob (hooks s)) in
  let computeCost := COMPUTE_COSTS (provider (hooks s)) in
  let declared := {| cumulativeEarnings := 0; cumulativeCosts := 0 |} in
  let (rows, t) :=
    Array_from weeks
      (project computeCost blobCost (audioPrice (hooks s))
         (userStake (hooks s)))
      declared in
  (rows, {| hooks := hooks s; cells := t |}).

(** * The array builder *)

Section ArrayFrom.

Context {A : Type} (fn : nat -> M A).

Lemma from_index_step (i k : nat) (t : Totals) :
  fst (from_index fn i (S k) t)
  = fst (fn i t) :: fst (from_index fn (S i) k (snd (fn i t))).
Proof.
  simpl. unfold bind.
  destruct (fn i t) as [a t1]. simpl.
  destruct (from_index fn (S i) k t1) as [l t2]. reflexivity.
Qed.

Lemma from_index_length (k i : nat) (t : Totals) :
  length (fst (from_index fn i k t)) = k.
Proof.
  revert i t. induction k as [|k IH]; intros i t.
  - reflexivity.
  - rewrite from_index_step. simpl. now rewrite IH.
Qed.

(** A field that does not look at the totals is a plain map over the indices. *)
Lemma from_index_map {B : Type} (g : A -> B) (h : nat -> B) :
  (forall i t, g (fst (fn i t)) = h i) ->
  forall k i t, map g (fst (from_index fn i k t)) = map h (seq i k).
Proof.
  intros Hg. induction k as [|k IH]; intros i t.
  - reflexivity.
  - rewrite from_index_step. simpl. now rewrite Hg, IH.
Qed.

(** Every element comes from one call of the mapping function. *)
Lemma from_index_In (a : A) :
  forall k i t, In a (fst (from_index fn i k t)) ->
    exists j t', i <= j < i + k /\ a = fst (fn j t').
Proof.
  induction k as [|k IH]; intros i t Hin.
  - destruct Hin.
  - rewrite from_index_step in Hin. destruct Hin as [<- | Hin].
    + exists i, t. split; [lia | reflexivity].
    + destruct (IH _ _ Hin) as (j & t' & Hj & ->).
      exists j, t'. split; [lia | reflexivity].
Qed.

End ArrayFrom.

(** * Ordered lists of numbers *)


(** * Zeros and non-finite numbers *)

(** A number is [=== 0] exactly when it is one of the two zeros. *)
Lemma strict_eq_zero (x : float) :
  strict_eq x 0 = true <-> exists s, Prim2SF x = S754_zero s.
Proof.
  unfold strict_eq. rewrite FloatAxioms.eqb_spec.
  change (Prim2SF 0) with (S754_zero false).
  destruct (Prim2SF x) as [s| s| |s m e]; cbn; split;
    try discriminate; try (intros [s' H]; discriminate H); eauto.
  all: destruct s; discriminate.
Qed.

(** A finite number is a zero or has a sign, a mantissa and an exponent. *)
Lemma isFinite_cases (x : float) :
  isFinite x = true ->
  (exists s, Prim2SF x = S754_zero s)
  \/ (exists s m e, Prim2SF x = S754_finite s m e).
Proof.
  unfold isFinite, is_nan, is_infinity.
  rewrite !FloatAxioms.eqb_spec, abs_spec.
  change (Prim2SF infinity) with (S754_infinity false).
  destruct (Prim2SF x) as [s| s| |s m e]; cbn; try discriminate; eauto.
  destruct s; discriminate.
Qed.

(** Zero times a finite number is zero. *)
Lemma mul_zero_finite (x y : float) :
  strict_eq x 0 = true -> isFinite y = true -> strict_eq (x * y) 0 = true.
Proof.
  intros Hx Hy. apply strict_eq_zero in Hx. destruct Hx as [s Hx].
  apply strict_eq_zero. rewrite mul_spec, Hx.
  destruct (isFinite_cases y Hy) as [[s' ->] | (s' & m & e & ->)]; cbn; eauto.
Qed.

(** Zero minus a non-zero number is its opposite, exactly. *)
Lemma sub_zero_l (x y : float) :
  strict_eq x 0 = true -> strict_eq y 0 = false -> x - y = - y.
Proof.
  intros Hx Hy. apply strict_eq_zero in Hx. destruct Hx as [s Hx].
  apply Prim2SF_inj. rewrite sub_spec, opp_spec, Hx.
  unfold strict_eq in Hy. rewrite FloatAxioms.eqb_spec in Hy.
  change (Prim2SF 0) with (S754_zero false) in Hy.
  destruct (Prim2SF y) as [s'| s'| |s' m e]; cbn in *;
    try reflexivity; discriminate.
Qed.

(** [NaN] spreads through products, and [NaN === 0] is false. *)
Lemma mul_nan_not_zero (x z : float) :
  strict_eq (x * (nan * z)) 0 = false.
Proof.
  unfold strict_eq. rewrite FloatAxioms.eqb_spec, !mul_spec.
  change (Prim2SF nan) with S754_nan. cbn.
  destruct (Prim2SF x); reflexivity.
Qed.

(** * The mapping function, call by call *)

Section Project.

Variables (computeCost : ComputeCost) (blobCost : BlobCost).
Variables (audioPrice userStake : float).

Local Abbreviation fn :=
  (project computeCost blobCost audioPrice userStake).

(** One call adds the week's earnings and costs to the totals. *)
Lemma project_totals (i : nat) (t : Totals) :
  snd (fn i t)
  = {| cumulativeEarnings :=
         cumulativeEarnings t + weeklyEarningsUSD (fst (fn i t));
       cumulativeCosts :=
         cumulativeCosts t + weeklyInfraCostUSD (fst (fn i t)) |}.
Proof. reflexivity. Qed.

(** The cumulative field is read off the totals after both updates. *)
Lemma project_cumulative (i : nat) (t : Totals) :
  cumulativeNetUSD (fst (fn i t))
  = cumulativeEarnings (snd (fn i t)) - cumulativeCosts (snd (fn i t)).
Proof. reflexivity. Qed.

Lemma project_week (i : nat) (t : Totals) :
  week (fst (fn i t)) = Num i + 1.
Proof. reflexivity. Qed.

Lemma project_earnings (i : nat) (t : Totals) :
  weeklyEarningsUSD (fst (fn i t))
  = userStake
    * (weeklyRewardRate * (1 + 0.05 * Math_cos ((Num i + 1) / 2)))
    * (audioPrice * (1 + 0.1 * Math_sin ((Num i + 1) / 3))).
Proof. reflexivity. Qed.

Lemma project_costs (i : nat) (t : Totals) :
  weeklyInfraCostUSD (fst (fn i t))
  = (base computeCost * monthlyToWeekly
     + storage_per_gb blobCost * storageGB
     + egress_per_gb blobCost * egressGB) * (1 + (Num i + 1) * 0.015).
Proof. reflexivity. Qed.

Lemma project_net (i : nat) (t : Totals) :
  netUSD (fst (fn i t))
  = weeklyEarningsUSD (fst (fn i t)) - weeklyInfraCostUSD (fst (fn i t)).
Proof. reflexivity. Qed.

(** The weekly fields of a call do not depend on the totals it starts from. *)
Lemma project_weekly_fields (i : nat) (t t' : Totals) :
  weeklyEarningsUSD (fst (fn i t)) = weeklyEarningsUSD (fst (fn i t'))
  /\ weeklyInfraCostUSD (fst (fn i t)) = weeklyInfraCostUSD (fst (fn i t')).
Proof. split; reflexivity. Qed.

(** Running totals: the cumulative field of the [w]-th element produced,
    counting from one, is the difference of the two totals after the first
    [w] elements were added to the starting totals, whatever the number of
    weeks. *)
Lemma from_index_cumulative (k i : nat) (t : Totals) :
  let l := fst (from_index fn i k t) in
  map cumulativeNetUSD l
  = map (fun w =>
           fold_left PrimFloat.add (map weeklyEarningsUSD (firstn w l))
             (cumulativeEarnings t)
           - fold_left PrimFloat.add (map weeklyInfraCostUSD (firstn w l))
               (cumulativeCosts t))
        (seq 1 k).
Proof.
  revert i t. induction k as [|k IH]; intros i t; cbv zeta.
  - reflexivity.
  - rewrite from_index_step.
    set (p := fst (fn i t)). set (t1 := snd (fn i t)).
    specialize (IH (S i) t1). cbv zeta in IH.
    set (l := fst (from_index fn (S i) k t1)) in *.
    change (seq 1 (S k)) with (1%nat :: seq 2 k).
    rewrite <- (seq_shift k 1). cbn [map]. rewrite map_map.
    cbn [map firstn fold_left]. f_equal.
    rewrite IH. apply map_ext. intros w.
    unfold t1. rewrite project_totals. reflexivity.
Qed.

End Project.

(** * The projected sequence *)

Section Data.

Variables (provider : Provider) (blob : BlobProvider).
Variables (audioPrice totalStake userStake : float).

(** The memo, as the array builder started at index 0 on fresh totals. *)
Lemma data_from_index :
  (data provider blob audioPrice totalStake userStake)
  = fst (from_index
           (project (COMPUTE_COSTS provider)
              (BLOB_COSTS blob) audioPrice userStake)
           0 weeks {| cumulativeEarnings := 0; cumulativeCosts := 0 |}).
Proof. unfold data, Array_from. reflexivity. Qed.

(** C3: the memo returns exactly [weeks = 12] elements, and their [week]
    fields are 1, 2, ..., 12 in this order. *)
Theorem data_weeks :
  length (data provider blob audioPrice totalStake userStake) = weeks
  /\ weeks = 12%nat
  /\ map week (data provider blob audioPrice totalStake userStake)
     = [1; 2; 3; 4; 5; 6; 7; 8; 9; 10; 11; 12].
Proof.
  rewrite data_from_index.
  split; [apply from_index_length | split; [reflexivity|]].
  rewrite (from_index_map _ week (fun i => Num i + 1)).
  - reflexivity.
  - intros i t. apply project_week.
Qed.

(** C1: the weekly earnings of the element of week [w], for [w] from 1 to
    12, are
    [userStake * ((0.07 / 52) * (1 + 0.05 * cos (w / 2)))
               * (audioPrice * (1 + 0.1 * sin (w / 3)))],
    the sine and cosine being [Math.sin] and [Math.cos], which take
    radians. *)
Theorem data_weeklyEarningsUSD :
  map weeklyEarningsUSD (data provider blob audioPrice totalStake userStake)
  = map (fun w =>
           userStake
           * ((0.07 / 52) * (1 + 0.05 * Math_cos (Num w / 2)))
           * (audioPrice * (1 + 0.1 * Math_sin (Num w / 3))))
        (seq 1 12).
Proof.
  rewrite data_from_index.
  rewrite (from_index_map _ weeklyEarningsUSD _ (project_earnings _ _ _ _)).
  reflexivity.
Qed.

(** C6: for every week [w] from 1 to 12 the element of week [w] exists and
    its [netUSD] is its weekly earnings minus its weekly infrastructure
    cost; the array has no other element. *)
Theorem data_netUSD :
  Forall (fun w =>
            exists p,
              at_week (data provider blob audioPrice totalStake userStake) w
              = Some p
              /\ netUSD p = weeklyEarningsUSD p - weeklyInfraCostUSD p)
    (seq 1 12)
  /\ Forall (fun p => netUSD p = weeklyEarningsUSD p - weeklyInfraCostUSD p)
       (data provider blob audioPrice totalStake userStake).
Proof.
  assert (Hall : forall p,
             In p (data provider blob audioPrice totalStake userStake) ->
             netUSD p = weeklyEarningsUSD p - weeklyInfraCostUSD p).
  { intros p Hin. rewrite data_from_index in Hin.
    apply from_index_In in Hin. destruct Hin as (j & t' & _ & ->).
    apply project_net. }
  split; apply Forall_forall; [|exact Hall].
  intros w Hw. apply in_seq in Hw. unfold at_week.
  destruct (nth_error (data provider blob audioPrice totalStake userStake)
              (w - 1)) as [p|] eqn:E.
  - exists p. split; [reflexivity|]. apply Hall. eapply nth_error_In, E.
  - apply nth_error_None in E.
    rewrite data_from_index, from_index_length in E. unfold weeks in E. lia.
Qed.

(** C4: the cumulative net of the element of week [w], for [w] from 1 to
    12, is the sum of the weekly earnings of weeks 1 to [w] minus the sum
    of the weekly infrastructure costs of weeks 1 to [w]. *)
Theorem data_cumulativeNetUSD :
  map cumulativeNetUSD (data provider blob audioPrice totalStake userStake)
  = map (fun w =>
           sum (map weeklyEarningsUSD
                  (firstn w (data provider blob audioPrice totalStake userStake)))
           - sum (map weeklyInfraCostUSD
                    (firstn w (data provider blob audioPrice totalStake userStake))))
        (seq 1 12).
Proof.
  rewrite data_from_index. unfold sum.
  apply (from_index_cumulative _ _ _ _ weeks 0
           {| cumulativeEarnings := 0; cumulativeCosts := 0 |}).
Qed.

(** The weekly infrastructure costs, index by index. *)
Lemma data_costs_by_index :
  map weeklyInfraCostUSD (data provider blob audioPrice totalStake userStake)
  = map (fun i =>
           (base (COMPUTE_COSTS provider) * monthlyToWeekly
            + storage_per_gb (BLOB_COSTS blob) * storageGB
            + egress_per_gb (BLOB_COSTS blob) * egressGB)
           * (1 + (Num i + 1) * 0.015))
        (seq 0 weeks).
Proof.
  rewrite data_from_index.
  apply (from_index_map _ weeklyInfraCostUSD _ (project_costs _ _ _ _)).
Qed.

Lemma field_at_map (f : WeekProjection -> float) (w : nat) :
  field_at f (data provider blob audioPrice totalStake userStake) w
  = nth_error (map f (data provider blob audioPrice totalStake userStake)) (w - 1).
Proof. unfold field_at, at_week. symmetry. apply nth_error_map. Qed.


(** C2, as the code has it: the weekly infrastructure cost of the element
    of week [w], for [w] from 1 to 12, is
    [(base * (1 / 4.345) + storage_per_gb * 200 + egress_per_gb * 400)
     * (1 + w * 0.015)]: the monthly compute base is multiplied by the
    rounded reciprocal of 4.345, not divided by 4.345. *)
Theorem data_costs_reciprocal :
  map weeklyInfraCostUSD (data provider blob audioPrice totalStake userStake)
  = map (fun w =>
           (base (COMPUTE_COSTS provider) * (1 / 4.345)
            + storage_per_gb (BLOB_COSTS blob) * 200
            + egress_per_gb (BLOB_COSTS blob) * 400)
           * (1 + Num w * 0.015))
        (seq 1 12).
Proof. rewrite data_costs_by_index. reflexivity. Qed.

(** The form with the division is off by rounding only: on every table
    row and in every week the two agree to within [1e-12]. *)
Lemma data_costs_near_spec :
  Forall2 (fun x y => approx 1e-12 x y = true)
    (map weeklyInfraCostUSD
       (data provider blob audioPrice totalStake userStake))
    (map (spec_weeklyInfraCostUSD (base (COMPUTE_COSTS provider))
            (storage_per_gb (BLOB_COSTS blob))
            (egress_per_gb (BLOB_COSTS blob)))
       (seq 1 12)).
Proof.
  rewrite data_costs_by_index.
  destruct provider, blob; vm_compute; repeat constructor.
Qed.


(** The weekly earnings, index by index. *)
Lemma data_earnings_by_index :
  map weeklyEarningsUSD (data provider blob audioPrice totalStake userStake)
  = map (fun i =>
           userStake
           * (weeklyRewardRate * (1 + 0.05 * Math_cos ((Num i + 1) / 2)))
           * (audioPrice * (1 + 0.1 * Math_sin ((Num i + 1) / 3))))
        (seq 0 weeks).
Proof.
  rewrite data_from_index.
  apply (from_index_map _ weeklyEarningsUSD _ (project_earnings _ _ _ _)).
Qed.

(** No table row gives a zero cost in any of the twelve weeks. *)
Lemma project_costs_nonzero (i : nat) (t : Totals) :
  (i < weeks)%nat ->
  strict_eq
    (weeklyInfraCostUSD
       (fst (project (COMPUTE_COSTS provider) (BLOB_COSTS blob)
               audioPrice userStake i t))) 0 = false.
Proof.
  intros Hi. rewrite project_costs. unfold weeks in Hi.
  destruct provider, blob;
    do 12 (destruct i as [|i]; [vm_compute; reflexivity|]); lia.
Qed.

(** C8, as the code has it: with a zero stake, every element whose week has
    a finite reward variance and a finite price drift has weekly earnings
    [=== 0] and a net that is the opposite of its weekly infrastructure
    cost. *)
Theorem data_zero_stake (p : WeekProjection) :
  In p (data provider blob audioPrice totalStake userStake) ->
  strict_eq userStake 0 = true ->
  isFinite (weeklyRewardRate * (1 + 0.05 * Math_cos (week p / 2))) = true ->
  isFinite (audioPrice * (1 + 0.1 * Math_sin (week p / 3))) = true ->
  strict_eq (weeklyEarningsUSD p) 0 = true
  /\ netUSD p = - weeklyInfraCostUSD p.
Proof.
  intros Hin Hstake. rewrite data_from_index in Hin.
  apply from_index_In in Hin. destruct Hin as (i & t & Hi & ->).
  rewrite project_week. intros Hreward Hprice.
  assert (Hzero : strict_eq
            (weeklyEarningsUSD
               (fst (project (COMPUTE_COSTS provider) (BLOB_COSTS blob)
                       audioPrice userStake i t))) 0 = true).
  { rewrite project_earnings.
    apply mul_zero_finite; [apply mul_zero_finite|]; assumption. }
  split; [exact Hzero|].
  rewrite project_net. apply sub_zero_l; [exact Hzero|].
  apply project_costs_nonzero. lia.
Qed.

End Data.

End Simulation.

(** C10: the projected sequence does not depend on [totalStake], although
    the memo lists it among its dependencies. *)
Theorem data_totalStake_unused (Math_sin Math_cos : float -> float)
    (provider : Provider) (blob : BlobProvider)
    (audioPrice userStake t1 t2 : float) :
  data Math_sin Math_cos provider blob audioPrice t1 userStake
  = data Math_sin Math_cos provider blob audioPrice t2 userStake.
Proof. unfold data. reflexivity. Qed.

(** What a call of the memo callback returns is the array [data] of the
    hook values it reads. *)
Lemma callback_rows (Math_sin Math_cos : float -> float) (s : Store) :
  fst (callback Math_sin Math_cos s)
  = data Math_sin Math_cos (provider (hooks s)) (blob (hooks s))
      (audioPrice (hooks s)) (totalStake (hooks s)) (userStake (hooks s)).
Proof.
  unfold callback, data. cbv zeta.
  destruct (Array_from weeks
              (project Math_sin Math_cos (COMPUTE_COSTS (provider (hooks s)))
                 (BLOB_COSTS (blob (hooks s))) (audioPrice (hooks s))
                 (userStake (hooks s)))
              {| cumulativeEarnings := 0; cumulativeCosts := 0 |})
    as [rows t].
  reflexivity.
Qed.

(** A call writes no hook state. *)
Lemma callback_hooks (Math_sin Math_cos : float -> float) (s : Store) :
  hooks (snd (callback Math_sin Math_cos s)) = hooks s.
Proof.
  unfold callback. cbv zeta.
  destruct (Array_from weeks
              (project Math_sin Math_cos (COMPUTE_COSTS (provider (hooks s)))
                 (BLOB_COSTS (blob (hooks s))) (audioPrice (hooks s))
                 (userStake (hooks s)))
              {| cumulativeEarnings := 0; cumulativeCosts := 0 |})
    as [rows t].
  reflexivity.
Qed.

(** C9: the memo is deterministic and touches no other state.  Two calls on
    memories that hold the same five dependency values return the same
    array, whatever the theme and whatever an earlier call left in the two
    cells; a call repeated on the memory the first call leaves returns the
    same array again; a call leaves the hook state as it found it; and the
    array returned is [data] of the hook values. *)
Theorem callback_deterministic (Math_sin Math_cos : float -> float)
    (s1 s2 : Store) :
  provider (hooks s1) = provider (hooks s2) ->
  blob (hooks s1) = blob (hooks s2) ->
  audioPrice (hooks s1) = audioPrice (hooks s2) ->
  totalStake (hooks s1) = totalStake (hooks s2) ->
  userStake (hooks s1) = userStake (hooks s2) ->
  fst (callback Math_sin Math_cos s1) = fst (callback Math_sin Math_cos s2)
  /\ fst (callback Math_sin Math_cos (snd (callback Math_sin Math_cos s1)))
     = fst (callback Math_sin Math_cos s1)
  /\ hooks (snd (callback Math_sin Math_cos s1)) = hooks s1
  /\ hooks (snd (callback Math_sin Math_cos s2)) = hooks s2
  /\ fst (callback Math_sin Math_cos s1)
     = data Math_sin Math_cos (provider (hooks s1)) (blob (hooks s1))
         (audioPrice (hooks s1)) (totalStake (hooks s1))
         (userStake (hooks s1)).
Proof.
  intros Hp Hb Ha Ht Hu. split; [|split; [|split; [|split]]].
  - rewrite (callback_rows _ _ s1), (callback_rows _ _ s2).
    rewrite Hp, Hb, Ha, Ht, Hu. reflexivity.
  - rewrite (callback_rows _ _ (snd (callback Math_sin Math_cos s1))).
    rewrite (callback_rows _ _ s1), (callback_hooks _ _ s1). reflexivity.
  - apply callback_hooks.
  - apply callback_hooks.
  - apply callback_rows.
Qed.

Lemma callback_deterministic_witness :
  fst (callback sin_series cos_series default_store)
  = fst (callback sin_series cos_series used_store)
  /\ fst (callback sin_series cos_series
            (snd (callback sin_series cos_series default_store)))
     = fst (callback sin_series cos_series default_store)
  /\ hooks (snd (callback sin_series cos_series default_store))
     = hooks default_store
  /\ hooks (snd (callback sin_series cos_series used_store))
     = hooks used_store
  /\ fst (callback sin_series cos_series default_store)
     = data sin_series cos_series (provider (hooks default_store))
         (blob (hooks default_store)) (audioPrice (hooks default_store))
         (totalStake (hooks default_store)) (userStake (hooks default_store)).
Proof.
  exact (callback_deterministic sin_series cos_series
           default_store used_store
           eq_refl eq_refl eq_refl eq_refl eq_refl).
Defined.


(** * The default scenario: AWS EC2, S3, price 0.27, stake 2 000 000 *)

(** The twelve weekly costs of the default scenario. *)
Example default_scenario_costs (Math_sin Math_cos : float -> float) :
  map weeklyInfraCostUSD
    (data Math_sin Math_cos aws_ec2 s3 0.27 280000000 2000000)
  = [59.897147295742229; 60.782326812428082; 61.667506329113927;
     62.552685845799779; 63.437865362485617; 64.323044879171476;
     65.208224395857314; 66.093403912543167; 66.978583429229005;
     67.863762945914843; 68.748942462600695; 69.634121979286533].
Proof. rewrite data_costs_by_index. reflexivity. Qed.

(** The cost of week 1, whatever [Math.sin] and [Math.cos] compute. *)
Lemma default_scenario_week1 (Math_sin Math_cos : float -> float)
    (totalStake : float) :
  field_at weeklyInfraCostUSD
    (data Math_sin Math_cos aws_ec2 s3 0.27 totalStake 2000000) 1
  = Some 59.897147295742229.
Proof. rewrite field_at_map, data_costs_by_index. reflexivity. Qed.

(** C2 as worded fails on the first row of the tables: in week 1 the cost
    computed with [80 / 4.345] is not the cost the memo computes. *)
Lemma week1_cost_not_divided :
  ~ exists Math_sin Math_cos : float -> float,
      field_at weeklyInfraCostUSD
        (data Math_sin Math_cos aws_ec2 s3 0.27 280000000 2000000) 1
      = Some (spec_weeklyInfraCostUSD 80 0.023 0.09 1).
Proof.
  intros (Math_sin & Math_cos & H).
  rewrite default_scenario_week1 in H.
  apply (f_equal (fun o => match o with
                           | Some x => x =? 59.897147295742229
                           | None => false
                           end)) in H.
  vm_compute in H. discriminate H.
Qed.

(** C5 as worded fails: the cost of week 1 is not within half a dollar of
    60.58. *)
Lemma week1_cost_not_60_58 :
  ~ exists (Math_sin Math_cos : float -> float) (c : float),
      field_at weeklyInfraCostUSD
        (data Math_sin Math_cos aws_ec2 s3 0.27 280000000 2000000) 1 = Some c
      /\ approx 0.5 c 60.58 = true.
Proof.
  intros (Math_sin & Math_cos & c & H & Hc).
  rewrite default_scenario_week1 in H.
  assert (E : c = 59.897147295742229)
    by (change (match Some c with Some x => x | None => c end
                = 59.897147295742229);
        rewrite <- H; reflexivity).
  subst c. vm_compute in Hc. discriminate Hc.
Qed.

(** C5, as the code has it: for AWS EC2 and S3 the weekly infrastructure cost
    of week 1 is [(80 * (1 / 4.345) + 0.023 * 200 + 0.09 * 400) * 1.015],
    which is 59.90 to the cent and agrees with
    [(80 / 4.345 + 0.023 * 200 + 0.09 * 400) * 1.015] up to rounding. *)
Theorem week1_cost_approx (Math_sin Math_cos : float -> float)
    (totalStake : float) :
  exists c : float,
    field_at weeklyInfraCostUSD
      (data Math_sin Math_cos aws_ec2 s3 0.27 totalStake 2000000) 1 = Some c
    /\ c = (80 * (1 / 4.345) + 0.023 * 200 + 0.09 * 400) * 1.015
    /\ approx 0.005 c 59.90 = true
    /\ approx 1e-12 c ((80 / 4.345 + 0.023 * 200 + 0.09 * 400) * 1.015) = true.
Proof.
  exists 59.897147295742229. split; [apply default_scenario_week1|].
  repeat split; vm_compute; reflexivity.
Qed.

(** * A zero stake *)

Lemma data_zero_stake_witness :
  Forall (fun p => strict_eq (weeklyEarningsUSD p) 0 = true
                   /\ netUSD p = - weeklyInfraCostUSD p)
    (data sin_series cos_series aws_ec2 s3 0.27 280000000 0).
Proof.
  apply Forall_forall. intros p Hin.
  apply (data_zero_stake sin_series cos_series
           aws_ec2 s3 0.27 280000000 0 p Hin);
    [reflexivity | |];
    vm_compute in Hin;
    repeat (destruct Hin as [<- | Hin]; [vm_compute; reflexivity|]);
    destruct Hin.
Defined.

(** C8 as worded fails when the price field is empty: [parseFloat] of the
    empty string is [NaN], and with a zero stake the weekly earnings of
    week 1 are then not [=== 0], whatever [Math.sin] and [Math.cos]
    compute. *)
Lemma nan_price_earnings_not_zero :
  ~ exists (Math_sin Math_cos : float -> float) (e : float),
      field_at weeklyEarningsUSD
        (data Math_sin Math_cos aws_ec2 s3 nan 280000000 0) 1 = Some e
      /\ strict_eq e 0 = true.
Proof.
  intros (Math_sin & Math_cos & e & H & He).
  rewrite field_at_map, data_earnings_by_index in H.
  cbn [weeks seq map nth_error Nat.sub] in H.
  assert (E : strict_eq e 0 = false).
  { change e with (match Some e with Some x => x | None => e end).
    rewrite <- H. apply mul_nan_not_zero. }
  rewrite E in He. discriminate He.
Qed.

(** * Not-a-number and zero through the arithmetic *)

Lemma is_nan_Prim2SF (x : float) :
  is_nan x = true <-> Prim2SF x = S754_nan.
Proof.
  unfold is_nan. rewrite FloatAxioms.eqb_spec.
  destruct (Prim2SF x) as [s| s| |s m e]; cbn.
  - destruct s; split; discriminate.
  - destruct s; split; discriminate.
  - split; reflexivity.
  - unfold SFeqb, SFcompare.
    rewrite Z.compare_refl, Pos.compare_cont_refl.
    destruct s; split; discriminate.
Qed.

Lemma mul_nan_l (x y : float) : is_nan x = true -> is_nan (x * y) = true.
Proof.
  rewrite !is_nan_Prim2SF, mul_spec. intros ->. reflexivity.
Qed.

Lemma mul_nan_r (x y : float) : is_nan y = true -> is_nan (x * y) = true.
Proof.
  rewrite !is_nan_Prim2SF, mul_spec. intros ->.
  destruct (Prim2SF x); reflexivity.
Qed.

Lemma add_nan_r (x y : float) : is_nan y = true -> is_nan (x + y) = true.
Proof.
  rewrite !is_nan_Prim2SF, add_spec. intros ->.
  destruct (Prim2SF x); reflexivity.
Qed.

Lemma sub_nan_l (x y : float) : is_nan x = true -> is_nan (x - y) = true.
Proof.
  rewrite !is_nan_Prim2SF, sub_spec. intros ->. reflexivity.
Qed.

Lemma add_zero_zero (x y : float) :
  strict_eq x 0 = true -> strict_eq y 0 = true -> strict_eq (x + y) 0 = true.
Proof.
  rewrite !strict_eq_zero, add_spec. intros [s ->] [s' ->].
  destruct s, s'; cbn; eauto.
Qed.

(** Adding to a fresh total and then subtracting is subtracting, as long as
    what is subtracted is not a zero. *)
Lemma fresh_totals_sub (e c : float) :
  strict_eq c 0 = false -> (0 + e) - (0 + c) = e - c.
Proof.
  unfold strict_eq. rewrite FloatAxioms.eqb_spec.
  change (Prim2SF 0) with (S754_zero false). intros Hc.
  apply Prim2SF_inj. rewrite !sub_spec, !add_spec.
  change (Prim2SF 0) with (S754_zero false).
  destruct (Prim2SF c) as [sc| sc| |sc mc ec]; cbn in Hc; try discriminate;
    destruct (Prim2SF e) as [[|]| se| |se me ee]; try reflexivity;
    destruct sc; reflexivity.
Qed.

Lemma mul_finite_zero (x y : float) :
  isFinite x = true -> strict_eq y 0 = true -> strict_eq (x * y) 0 = true.
Proof.
  intros Hx Hy. apply strict_eq_zero in Hy. destruct Hy as [s Hy].
  apply strict_eq_zero. rewrite mul_spec, Hy.
  destruct (isFinite_cases x Hx) as [[s' ->] | (s' & m & e & ->)]; cbn; eauto.
Qed.

(** Zeros add up to a zero. *)
Lemma fold_add_zeros (l : list float) :
  Forall (fun x => strict_eq x 0 = true) l ->
  forall acc, strict_eq acc 0 = true ->
    strict_eq (fold_left PrimFloat.add l acc) 0 = true.
Proof.
  induction 1 as [|x l Hx _ IH]; intros acc Hacc; cbn.
  - exact Hacc.
  - apply IH, add_zero_zero; assumption.
Qed.

(** The week number of a small index, as a number. *)
Lemma Num_succ (i : nat) : (i < weeks)%nat -> Num i + 1 = Num (S i).
Proof.
  unfold weeks. intros Hi.
  do 12 (destruct i as [|i]; [reflexivity|]). lia.
Qed.

(** * Edge inputs and invariants of the projection *)

Section Edges.

Variables Math_sin Math_cos : float -> float.
Variables (provider : Provider) (blob : BlobProvider).
Variables (audioPrice totalStake userStake : float).

(** X1: when [audioPrice] is [NaN], which is what [parseFloat] makes of an
    empty price field, the earnings, the net and the cumulative net of every
    week are [NaN]. *)
Theorem data_nan_price :
  Forall (fun p => is_nan (weeklyEarningsUSD p) = true
                   /\ is_nan (netUSD p) = true
                   /\ is_nan (cumulativeNetUSD p) = true)
    (data Math_sin Math_cos provider blob nan totalStake userStake).
Proof.
  apply Forall_forall. intros p Hin.
  rewrite data_from_index in Hin.
  apply from_index_In in Hin. destruct Hin as (i & t & _ & ->).
  assert (He : is_nan (weeklyEarningsUSD
                         (fst (project Math_sin Math_cos
                                 (COMPUTE_COSTS provider) (BLOB_COSTS blob)
                                 nan userStake i t))) = true).
  { rewrite project_earnings. apply mul_nan_r, mul_nan_l. reflexivity. }
  split; [exact He | split].
  - rewrite project_net. apply sub_nan_l, He.
  - rewrite project_cumulative, project_totals.
    cbn [cumulativeEarnings cumulativeCosts].
    apply sub_nan_l, add_nan_r, He.
Qed.

(** X2: when [userStake] is [NaN] (an empty stake field), the earnings, the
    net and the cumulative net of every week are [NaN]. *)
Theorem data_nan_stake :
  Forall (fun p => is_nan (weeklyEarningsUSD p) = true
                   /\ is_nan (netUSD p) = true
                   /\ is_nan (cumulativeNetUSD p) = true)
    (data Math_sin Math_cos provider blob audioPrice totalStake nan).
Proof.
  apply Forall_forall. intros p Hin.
  rewrite data_from_index in Hin.
  apply from_index_In in Hin. destruct Hin as (i & t & _ & ->).
  assert (He : is_nan (weeklyEarningsUSD
                         (fst (project Math_sin Math_cos
                                 (COMPUTE_COSTS provider) (BLOB_COSTS blob)
                                 audioPrice nan i t))) = true).
  { rewrite project_earnings. apply mul_nan_l, mul_nan_l. reflexivity. }
  split; [exact He | split].
  - rewrite project_net. apply sub_nan_l, He.
  - rewrite project_cumulative, project_totals.
    cbn [cumulativeEarnings cumulativeCosts].
    apply sub_nan_l, add_nan_r, He.
Qed.

(** X3: whatever is typed in the price and stake fields, the weekly
    infrastructure cost of every week is a finite number between 57 and 84
    dollars. *)
Theorem data_costs_bounded :
  Forall (fun p => isFinite (weeklyInfraCostUSD p) = true
                   /\ (57 <? weeklyInfraCostUSD p) = true
                   /\ (weeklyInfraCostUSD p <? 84) = true)
    (data Math_sin Math_cos provider blob audioPrice totalStake userStake).
Proof.
  apply (proj1 (Forall_map weeklyInfraCostUSD
                  (fun c => isFinite c = true
                            /\ (57 <? c) = true /\ (c <? 84) = true) _)).
  rewrite data_costs_by_index.
  destruct provider, blob; vm_compute; repeat constructor.
Qed.

(** X4: the cumulative line starts on the net line: in week 1 the cumulative net
    is the net of the week, for every input. *)
Theorem data_week1_cumulative :
  exists p,
    at_week (data Math_sin Math_cos provider blob audioPrice totalStake
               userStake) 1 = Some p
    /\ cumulativeNetUSD p = netUSD p.
Proof.
  rewrite data_from_index. unfold weeks. rewrite from_index_step.
  eexists. split; [reflexivity|].
  rewrite project_cumulative, project_totals, project_net.
  cbn [cumulativeEarnings cumulativeCosts].
  apply fresh_totals_sub, project_costs_nonzero. unfold weeks. lia.
Qed.

End Edges.

(** * What each line of the chart depends on *)

(** X5: the cost line moves with the provider and blob selectors only: the
    price, the stakes and the trigonometric functions do not enter it. *)
Theorem data_costs_only_tables (sin1 cos1 sin2 cos2 : float -> float)
    (provider : Provider) (blob : BlobProvider)
    (audioPrice1 totalStake1 userStake1 : float)
    (audioPrice2 totalStake2 userStake2 : float) :
  map weeklyInfraCostUSD
    (data sin1 cos1 provider blob audioPrice1 totalStake1 userStake1)
  = map weeklyInfraCostUSD
      (data sin2 cos2 provider blob audioPrice2 totalStake2 userStake2).
Proof. rewrite !data_costs_by_index. reflexivity. Qed.

(** X6: the earnings line moves with the price and the user's stake only: the
    provider and blob selectors do not enter it. *)
Theorem data_earnings_only_fields (Math_sin Math_cos : float -> float)
    (provider1 provider2 : Provider) (blob1 blob2 : BlobProvider)
    (audioPrice userStake totalStake1 totalStake2 : float) :
  map weeklyEarningsUSD
    (data Math_sin Math_cos provider1 blob1 audioPrice totalStake1 userStake)
  = map weeklyEarningsUSD
      (data Math_sin Math_cos provider2 blob2 audioPrice totalStake2
         userStake).
Proof. rewrite !data_earnings_by_index. reflexivity. Qed.



(** X9: the growth is linear, not compound: from one week to the next the cost
    rises, but by less than 1.5 % of the earlier week's cost. *)
Theorem data_costs_growth (Math_sin Math_cos : float -> float)
    (provider : Provider) (blob : BlobProvider)
    (audioPrice totalStake userStake : float) :
  Forall2 (fun x y => (x <? y) = true /\ (y <? x * 1.015) = true)
    (removelast
       (map weeklyInfraCostUSD
          (data Math_sin Math_cos provider blob audioPrice totalStake
             userStake)))
    (tl (map weeklyInfraCostUSD
           (data Math_sin Math_cos provider blob audioPrice totalStake
              userStake))).
Proof.
  rewrite data_costs_by_index.
  destruct provider, blob; vm_compute; repeat constructor.
Qed.

(** * A zero stake or a zero price *)

Lemma Forall_firstn_keep {A : Type} (P : A -> Prop) (l : list A) :
  Forall P l -> forall n, Forall P (firstn n l).
Proof.
  induction 1 as [|x l Hx _ IH]; intros [|n]; cbn; constructor; auto.
Qed.

Section Zero.

Variables Math_sin Math_cos : float -> float.
Variables (provider : Provider) (blob : BlobProvider).
Variables (audioPrice totalStake userStake : float).

(** The accumulated costs of the first [w] weeks are not zero. *)
Lemma data_costs_sum_nonzero (w : nat) :
  In w (seq 1 12) ->
  strict_eq
    (sum (map weeklyInfraCostUSD
            (firstn w (data Math_sin Math_cos provider blob audioPrice
                         totalStake userStake)))) 0 = false.
Proof.
  intros Hw. rewrite <- firstn_map, data_costs_by_index.
  cbn in Hw.
  destruct provider, blob;
    repeat (destruct Hw as [<- | Hw]; [vm_compute; reflexivity|]);
    destruct Hw.
Qed.

(** X11: with a zero stake and finite weekly factors the earnings never move the
    totals: the cumulative net of week [w] is the opposite of the costs
    accumulated over weeks 1 to [w]. *)
Theorem zero_stake_cumulative_costs :
  strict_eq userStake 0 = true ->
  (forall w, In w (seq 1 12) ->
     isFinite (weeklyRewardRate * (1 + 0.05 * Math_cos (Num w / 2))) = true
     /\ isFinite (audioPrice * (1 + 0.1 * Math_sin (Num w / 3))) = true) ->
  map cumulativeNetUSD
    (data Math_sin Math_cos provider blob audioPrice totalStake userStake)
  = map (fun w =>
           - sum (map weeklyInfraCostUSD
                    (firstn w (data Math_sin Math_cos provider blob
                                 audioPrice totalStake userStake))))
        (seq 1 12).
Proof.
  intros Hstake Hfin.
  assert (Hzero : Forall (fun x => strict_eq x 0 = true)
            (map weeklyEarningsUSD
               (data Math_sin Math_cos provider blob audioPrice totalStake
                  userStake))).
  { rewrite data_earnings_by_index. apply Forall_map, Forall_forall.
    intros i Hi. apply in_seq in Hi.
    rewrite (Num_succ i) by lia.
    destruct (Hfin (S i)) as [Hr Hp]; [apply in_seq; unfold weeks in Hi; lia|].
    apply mul_zero_finite; [apply mul_zero_finite|]; assumption. }
  pose proof (from_index_cumulative Math_sin Math_cos
                (COMPUTE_COSTS provider) (BLOB_COSTS blob)
                audioPrice userStake weeks 0
                {| cumulativeEarnings := 0; cumulativeCosts := 0 |}) as Hcum.
  cbv zeta in Hcum.
  rewrite <- (data_from_index Math_sin Math_cos provider blob audioPrice
                totalStake userStake) in Hcum.
  cbn [cumulativeEarnings cumulativeCosts] in Hcum.
  rewrite Hcum. apply map_ext_in. intros w Hw.
  apply sub_zero_l.
  - rewrite <- firstn_map. apply fold_add_zeros; [|reflexivity].
    apply Forall_firstn_keep, Hzero.
  - apply (data_costs_sum_nonzero w Hw).
Qed.

(** X12: with a zero price, every element whose week has a finite reward and a
    finite drift factor has weekly earnings [=== 0] and a net that is the
    opposite of its weekly infrastructure cost. *)
Theorem data_zero_price (p : WeekProjection) :
  In p (data Math_sin Math_cos provider blob audioPrice totalStake
          userStake) ->
  strict_eq audioPrice 0 = true ->
  isFinite (userStake
            * (weeklyRewardRate * (1 + 0.05 * Math_cos (week p / 2))))
  = true ->
  isFinite (1 + 0.1 * Math_sin (week p / 3)) = true ->
  strict_eq (weeklyEarningsUSD p) 0 = true
  /\ netUSD p = - weeklyInfraCostUSD p.
Proof.
  intros Hin Hprice. rewrite data_from_index in Hin.
  apply from_index_In in Hin. destruct Hin as (i & t & Hi & ->).
  rewrite project_week. intros Hreward Hdrift.
  assert (Hzero : strict_eq
            (weeklyEarningsUSD
               (fst (project Math_sin Math_cos (COMPUTE_COSTS provider)
                       (BLOB_COSTS blob) audioPrice userStake i t))) 0
            = true).
  { rewrite project_earnings.
    apply mul_finite_zero; [|apply mul_zero_finite]; assumption. }
  split; [exact Hzero|].
  rewrite project_net. apply sub_zero_l; [exact Hzero|].
  apply project_costs_nonzero. lia.
Qed.

End Zero.

Lemma zero_stake_cumulative_costs_witness :
  map cumulativeNetUSD
    (data sin_series cos_series aws_ec2 s3 0.27 280000000 0)
  = map (fun w =>
           - sum (map weeklyInfraCostUSD
                    (firstn w (data sin_series cos_series aws_ec2 s3 0.27
                                 280000000 0))))
        (seq 1 12).
Proof.
  apply (zero_stake_cumulative_costs sin_series cos_series
           aws_ec2 s3 0.27 280000000 0); [reflexivity|].
  intros w Hw. cbn in Hw.
  repeat (destruct Hw as [<- | Hw]; [vm_compute; split; reflexivity|]).
  destruct Hw.
Defined.

Lemma data_zero_price_witness :
  Forall (fun p => strict_eq (weeklyEarningsUSD p) 0 = true
                   /\ netUSD p = - weeklyInfraCostUSD p)
    (data sin_series cos_series gcp_compute gcs 0 280000000 2000000).
Proof.
  apply Forall_forall. intros p Hin.
  apply (data_zero_price sin_series cos_series
           gcp_compute gcs 0 280000000 2000000 p Hin);
    [reflexivity | |];
    vm_compute in Hin;
    repeat (destruct Hin as [<- | Hin]; [vm_compute; reflexivity|]);
    destruct Hin.
Defined.
